(** * plenti: the [build] command (cmd/build.go)

    A shallow embedding of [setBuildDir] and [Build].  [Build] is a
    sequencing layer over functions of other packages ([plenti/cmd/build],
    [plenti/readers], [os], [time]); they are taken as parameters, two
    handlers that answer every call from an abstract world, so every
    theorem below holds for every behaviour of those functions.  A run
    yields the ordered trace of calls with their replies, the final world
    and the way the function ended. *)

From Stdlib Require Import Ascii String.
From stdpp Require Import base strings gmap list.

Open Scope Z_scope.

(** ** Go values *)

(** A Go [error]: [None] is [nil], [Some msg] an error whose [Error()] text is [msg]. *)
Definition error := option string.

(** The value carried by a panic, as [%v] prints it.  A panic in flight
    always carries a value, so [recover() != nil] is "a panic is in flight". *)
Definition PanicVal := string.

Definition time_Time := Z.
Definition FileMode := Z.

(** [os.ModePerm], the Unix permission bits 0o777. *)
Definition os_ModePerm : FileMode := 511.

Definition LF : string := String "010"%char EmptyString.
Definition DQ : string := String "034"%char EmptyString.

(** The package-level flag variables of cmd/build.go, lines 15-25; cobra
    sets them before [Build] runs and [Build] only reads them. *)
Record Flags := mkFlags {
  BuildDirFlag : string;
  VerboseFlag : bool;
  BenchmarkFlag : bool;
  NodeJSFlag : bool
}.

(** What a collaborator call does: it returns a value or it panics. *)
Inductive Reply (X : Type) : Type :=
| Value (x : X)
| Panics (r : PanicVal).
Arguments Value {X} x.
Arguments Panics {X} r.

(** How a Go function ends: it returns, the process exits ([log.Fatal]
    calls [os.Exit(1)]), or a panic leaves the function. *)
Inductive Outcome (A : Type) : Type :=
| Done (a : A)
| Exited (code : Z)
| Panicking (r : PanicVal).
Arguments Done {A} a.
Arguments Exited {A} code.
Arguments Panicking {A} r.

(** The functions [Build] calls, by name. *)
Inductive Name :=
| NCheckVerboseFlag | NCheckBenchmarkFlag | Ntime_Now | NBenchmark
| NGetSiteConfig | NThemesCopy | NThemesMerge
| Nos_Stat | NLog | Nos_RemoveAll | Nos_MkdirAll
| NNpmDefaults | NEjectTemp | NEjectCopy | NAssetsCopy
| NNodeClient | NNodeDataSource | NNodeExec | NClient | NDataSource
| NGopack | NThemesClean | NEjectClean.

#[global] Instance Name_eq_dec : EqDecision Name.
Proof. solve_decision. Defined.

Section Model.

(** [readers.ThemeOptions] is opaque to this file: it is only read out of
    the configuration and handed to [build.ThemesCopy]. *)
Context {ThemeOptions : Type}.
(** The zero value of [readers.ThemeOptions], what indexing a Go map
    yields for an absent key. *)
Variable ThemeOptions_zero : ThemeOptions.

(** Modelled from the spec: [readers.SiteConfig] is declared in
    plenti/readers, which is not part of the sources at hand; the fields
    are the three that [Build] reads (output-directory name, selected
    theme name, mapping from theme name to that theme's options). *)
Record SiteConfig := mkSiteConfig {
  BuildDir : string;
  Theme : string;
  ThemeConfig : gmap string ThemeOptions
}.

(** The zero value of the struct: empty strings and a nil map. *)
Definition SiteConfig_zero : SiteConfig :=
  {| BuildDir := ""; Theme := ""; ThemeConfig := ∅ |}.

(** [siteConfig.ThemeConfig[theme]]. *)
Definition index_ThemeConfig (c : SiteConfig) (theme : string) : ThemeOptions :=
  default ThemeOptions_zero (ThemeConfig c !! theme).

(** The helpers that always return: the flag setters, the logging and
    timing helpers of [plenti/cmd/build], and the functions of [os] and
    [time], which report a failure through the error they return.
    [os_Stat] keeps only the error: the caller discards the [FileInfo]. *)
Inductive Sys : Type -> Type :=
| CheckVerboseFlag (flag : bool) : Sys unit
| CheckBenchmarkFlag (flag : bool) : Sys unit
| time_Now : Sys time_Time
| Benchmark (start : time_Time) (message : string) (alwaysRun : bool) : Sys unit
| Log (msg : string) : Sys unit
| os_Stat (name : string) : Sys error
| os_RemoveAll (path : string) : Sys error
| os_MkdirAll (path : string) (perm : FileMode) : Sys error.

(** The stage collaborators of [plenti/readers] and [plenti/cmd/build],
    indexed by what each returns; a call to one of them may also panic
    (line 56: "Handle panic when someone tries building outside of a
    valid Plenti site").  Modelled from the spec: the second result of
    [readers.GetSiteConfig], which [Build] discards, is the load error. *)
Inductive Ext : Type -> Type :=
| GetSiteConfig (basePath : string) : Ext (SiteConfig * error)
| ThemesCopy (theme : string) (themeOptions : ThemeOptions) : Ext (string * error)
| ThemesMerge (tempBuildDir buildDir : string) : Ext error
| NpmDefaults (tempBuildDir : string) : Ext error
| EjectTemp (tempBuildDir : string) : Ext (list string * string)
| EjectCopy (buildPath tempBuildDir ejectedPath : string) : Ext error
| AssetsCopy (buildPath tempBuildDir : string) : Ext error
| NodeClient (buildPath : string) : Ext string
| NodeDataSource (buildPath : string) (siteConfig : SiteConfig) : Ext (string * string * error)
| NodeExec (clientBuildStr staticBuildStr allNodesStr : string) : Ext error
| Client (buildPath tempBuildDir ejectedPath : string) : Ext error
| DataSource (buildPath : string) (siteConfig : SiteConfig) (tempBuildDir : string) : Ext error
| Gopack (buildPath : string) : Ext unit
| ThemesClean (tempBuildDir : string) : Ext error
| EjectClean (tempFiles : list string) (ejectedPath : string) : Ext error.

Definition Sys_name {X} (s : Sys X) : Name :=
  match s with
  | CheckVerboseFlag _ => NCheckVerboseFlag
  | CheckBenchmarkFlag _ => NCheckBenchmarkFlag
  | time_Now => Ntime_Now
  | Benchmark _ _ _ => NBenchmark
  | Log _ => NLog
  | os_Stat _ => Nos_Stat
  | os_RemoveAll _ => Nos_RemoveAll
  | os_MkdirAll _ _ => Nos_MkdirAll
  end.

Definition Ext_name {X} (e : Ext X) : Name :=
  match e with
  | GetSiteConfig _ => NGetSiteConfig
  | ThemesCopy _ _ => NThemesCopy
  | ThemesMerge _ _ => NThemesMerge
  | NpmDefaults _ => NNpmDefaults
  | EjectTemp _ => NEjectTemp
  | EjectCopy _ _ _ => NEjectCopy
  | AssetsCopy _ _ => NAssetsCopy
  | NodeClient _ => NNodeClient
  | NodeDataSource _ _ => NNodeDataSource
  | NodeExec _ _ _ => NNodeExec
  | Client _ _ _ => NClient
  | DataSource _ _ _ => NDataSource
  | Gopack _ => NGopack
  | ThemesClean _ => NThemesClean
  | EjectClean _ _ => NEjectClean
  end.

(** The error among the results of a call ([nil] when it returns none). *)
Definition Sys_error {X} (s : Sys X) : X -> error :=
  match s in Sys X return X -> error with
  | os_Stat _ => fun err => err
  | os_RemoveAll _ => fun err => err
  | os_MkdirAll _ _ => fun err => err
  | _ => fun _ => None
  end.

Definition Ext_error {X} (e : Ext X) : X -> error :=
  match e in Ext X return X -> error with
  | GetSiteConfig _ => snd
  | ThemesCopy _ _ => snd
  | ThemesMerge _ _ => fun err => err
  | NpmDefaults _ => fun err => err
  | EjectTemp _ => fun _ => None
  | EjectCopy _ _ _ => fun err => err
  | AssetsCopy _ _ => fun err => err
  | NodeClient _ => fun _ => None
  | NodeDataSource _ _ => snd
  | NodeExec _ _ _ => fun err => err
  | Client _ _ _ => fun err => err
  | DataSource _ _ _ => fun err => err
  | Gopack _ => fun _ => None
  | ThemesClean _ => fun err => err
  | EjectClean _ _ => fun err => err
  end.

(** What a run leaves behind, in order: the calls with their replies,
    the text written to standard output, and the message handed to
    [log.Fatal] / [log.Fatalf] (the logger's time stamp is left out). *)
Inductive Event : Type :=
| Sy {X} (s : Sys X) (x : X)
| Ev {X} (e : Ext X) (r : Reply X)
| Stdout (text : string)
| Log_Fatal (msg : string).

(** ** The monad of [Build]: world passing, a trace, early ends *)

Context {World : Type}.

Record Run (A : Type) : Type := mkRun {
  trace : list Event;
  final : World;
  outcome : Outcome A
}.
Arguments mkRun {A} trace final outcome.
Arguments trace {A} r.
Arguments final {A} r.
Arguments outcome {A} r.

Definition M (A : Type) : Type := World -> Run A.

(** Every call is answered from the current world and leaves a new one. *)
Variable sys : forall X, Sys X -> World -> X * World.
Variable collab : forall X, Ext X -> World -> Reply X * World.

(** [filepath.Join] of two elements, a pure function of the Go library. *)
Variable filepath_Join : string -> string -> string.

Definition ret {A} (a : A) : M A := fun w => mkRun [] w (Done a).

Definition bind {A B} (m : M A) (k : A -> M B) : M B := fun w =>
  let r := m w in
  match outcome r with
  | Done a => let r' := k a (final r) in
              mkRun (trace r ++ trace r') (final r') (outcome r')
  | Exited c => mkRun (trace r) (final r) (Exited c)
  | Panicking p => mkRun (trace r) (final r) (Panicking p)
  end.

#[global] Instance M_ret : MRet M := @ret.
#[global] Instance M_bind : MBind M := fun A B k m => bind m k.

Definition syscall {X} (s : Sys X) : M X := fun w =>
  let '(x, w') := sys X s w in
  mkRun [Sy s x] w' (Done x).

Definition call {X} (e : Ext X) : M X := fun w =>
  let '(r, w') := collab X e w in
  mkRun [Ev e r] w'
        match r with Value x => Done x | Panics p => Panicking p end.

(** [fmt.Println(s)] *)
Definition fmt_Println (s : string) : M unit := fun w =>
  mkRun [Stdout (s +:+ LF)] w (Done tt).

(** [fmt.Printf("Error: %v \n\n", r)] *)
Definition fmt_Printf_Error (r : PanicVal) : M unit := fun w =>
  mkRun [Stdout ("Error: " +:+ r +:+ " " +:+ LF +:+ LF)] w (Done tt).

(** [log.Fatal(err)] for a non-nil [err]: print, then [os.Exit(1)]. *)
Definition log_Fatal {A} (msg : string) : M A := fun w =>
  mkRun [Log_Fatal msg] w (Exited 1).

(** [log.Fatalf("Unable to create \"%v\" build directory: %s\n", buildDir, err)] *)
Definition log_Fatalf_create {A} (buildDir msg : string) : M A :=
  log_Fatal ("Unable to create " +:+ DQ +:+ buildDir +:+ DQ
             +:+ " build directory: " +:+ msg +:+ LF).

(** A deferred function sees the panic in flight, if any, and leaves the
    panic that is still in flight when it returns: [recover()] clears it. *)
Definition Deferred : Type := option PanicVal -> M (option PanicVal).

(** How the surrounding function ends once a deferred function has ended
    with [o]: a panic raised by the deferred function itself replaces
    the one in flight. *)
Definition unwound (o : Outcome (option PanicVal)) : Outcome unit :=
  match o with
  | Done None => Done tt
  | Done (Some p) => Panicking p
  | Exited c => Exited c
  | Panicking p => Panicking p
  end.

(** [defer d; body] in a function without results.  [os.Exit] runs no
    deferred function. *)
Definition defer (d : Deferred) (body : M unit) : M unit := fun w =>
  let r := body w in
  let unwind inflight :=
    let r' := d inflight (final r) in
    mkRun (trace r ++ trace r') (final r') (unwound (outcome r')) in
  match outcome r with
  | Done _ => unwind None
  | Exited c => r
  | Panicking p => unwind (Some p)
  end.

(** ** cmd/build.go *)

(** [setBuildDir], lines 27-35. *)
Definition setBuildDir (flags : Flags) (siteConfig : SiteConfig) : string :=
  let buildDir := BuildDir siteConfig in
  if decide (BuildDirFlag flags ≠ "") then BuildDirFlag flags else buildDir.

(** Modelled from the spec: [CheckErr] is declared elsewhere in package
    cmd, not in the sources at hand; per the spec a failure handed to it
    during cleanup is fatal, and a nil error lets the run go on. *)
Definition CheckErr (err : error) : M unit :=
  match err with
  | Some msg => log_Fatal msg
  | None => mret tt
  end.

(** [if err != nil { log.Fatal(err) }] *)
Definition log_Fatal_if (err : error) : M unit :=
  match err with
  | Some msg => log_Fatal msg
  | None => mret tt
  end.

(** Lines 50-167, statement by statement, with the comments of the
    source.  The argument of the deferred [build.Benchmark] is evaluated
    where the [defer] statement stands, and the deferred calls run last
    registered first.  [tempBuildDir], assigned inside the theme block, is
    the value that block yields. *)
Definition Build (flags : Flags) : M unit :=
  syscall (CheckVerboseFlag (VerboseFlag flags));;
  syscall (CheckBenchmarkFlag (BenchmarkFlag flags));;
  start ← syscall time_Now;
  defer (fun inflight => syscall (Benchmark start "Total build" true);; mret inflight) (

  (* Handle panic when someone tries building outside of a valid Plenti site. *)
  defer (fun inflight =>
    match inflight with
    | Some r =>
        fmt_Println "Please create a valid Plenti project or fix your app structure before trying to run this command again.";;
        fmt_Printf_Error r;;
        mret None
    | None => mret None
    end) (

  (* Get settings from config file. *)
  '(siteConfig, _) ← call (GetSiteConfig ".");

  (* Check flags and config for directory to build to. *)
  let buildDir := setBuildDir flags siteConfig in

  (* Get theme from plenti.json. *)
  let theme := Theme siteConfig in
  (* If a theme is set, run the nested build. *)
  tempBuildDir ←
    (if decide (theme ≠ "") then
       let themeOptions := index_ThemeConfig siteConfig theme in
       (* Recursively copy all nested themes to a temp folder for building. *)
       '(tempBuildDir, err) ← call (ThemesCopy ("themes/" +:+ theme) themeOptions);
       log_Fatal_if err;;
       (* Merge the current project files with the theme. *)
       err ← call (ThemesMerge tempBuildDir buildDir);
       log_Fatal_if err;;
       mret tempBuildDir
     else mret "");

  (* Get the full path for the build directory of the site. *)
  let buildPath := filepath_Join "." buildDir in

  (* Clear out any previous build dir of the same name. *)
  buildPathExistsErr ← syscall (os_Stat buildPath);
  (if decide (buildPathExistsErr = None) then
     syscall (Log ("Removing old '" +:+ buildPath +:+ "' build directory"));;
     err ← syscall (os_RemoveAll buildPath);
     log_Fatal_if err
   else mret tt);;

  (* Create the buildPath directory. *)
  err ← syscall (os_MkdirAll buildPath os_ModePerm);
  match err with
  | Some msg => log_Fatalf_create buildDir msg   (* bail on error *)
  | None => mret tt
  end;;
  syscall (Log ("Creating '" +:+ buildDir +:+ "' build directory"));;

  (* Add core NPM dependencies if node_module folder doesn't already exist. *)
  err ← call (NpmDefaults tempBuildDir);
  log_Fatal_if err;;

  (* Write ejectable core files to filesystem before building. *)
  '(tempFiles, ejectedPath) ← call (EjectTemp tempBuildDir);

  (* Directly copy .js that don't need compiling to the build dir. *)
  err ← call (EjectCopy buildPath tempBuildDir ejectedPath);
  log_Fatal_if err;;

  (* Directly copy static assets to the build dir. *)
  err ← call (AssetsCopy buildPath tempBuildDir);
  log_Fatal_if err;;

  (* Run the build.js script using user local NodeJS. *)
  (if NodeJSFlag flags then
     clientBuildStr ← call (NodeClient buildPath);
     '(staticBuildStr, allNodesStr, err) ← call (NodeDataSource buildPath siteConfig);
     log_Fatal_if err;;
     err ← call (NodeExec clientBuildStr staticBuildStr allNodesStr);
     log_Fatal_if err
   else
     (* Prep the client SPA. *)
     err ← call (Client buildPath tempBuildDir ejectedPath);
     log_Fatal_if err;;
     (* Build JSON from "content/" directory. *)
     err ← call (DataSource buildPath siteConfig tempBuildDir);
     log_Fatal_if err);;

  (* Run Gopack (custom Snowpack alternative) for ESM support. *)
  call (Gopack buildPath);;

  if decide (tempBuildDir ≠ "") then
    (* If using themes, just delete the whole build folder. *)
    err ← call (ThemesClean tempBuildDir);
    CheckErr err
  else
    (* If no theme, just delete any ejectable files that the user didn't manually eject. *)
    err ← call (EjectClean tempFiles ejectedPath);
    CheckErr err)).

(** ** Reading a trace *)

(** How a call ended: it returned (with this error among its results),
    or it panicked. *)
Inductive Status :=
| Returned (err : error)
| Panicked (r : PanicVal).

Definition entry (ev : Event) : option (Name * Status) :=
  match ev with
  | Sy s x => Some (Sys_name s, Returned (Sys_error s x))
  | Ev e (Value x) => Some (Ext_name e, Returned (Ext_error e x))
  | Ev e (Panics r) => Some (Ext_name e, Panicked r)
  | Stdout _ => None
  | Log_Fatal _ => None
  end.

(** The names of the functions called, in order. *)
Definition calls (tr : list Event) : list Name := fst <$> omap entry tr.

Definition is_call (n : Name) (ev : Event) : bool :=
  match entry ev with
  | Some (n', _) => bool_decide (n' = n)
  | None => false
  end.

Definition is_panic (ev : Event) : bool :=
  match entry ev with
  | Some (_, Panicked _) => true
  | _ => false
  end.

(** The trace from the first event that satisfies [p] on; empty when
    there is none. *)
Fixpoint from (p : Event -> bool) (tr : list Event) : list Event :=
  match tr with
  | [] => []
  | ev :: tr' => if p ev then ev :: tr' else from p tr'
  end.

(** The trace up to, and without, the first event that satisfies [p]. *)
Fixpoint before (p : Event -> bool) (tr : list Event) : list Event :=
  match tr with
  | [] => []
  | ev :: tr' => if p ev then [] else ev :: before p tr'
  end.

(** Whether [n] is called, and how its first call ended. *)
Definition called (n : Name) (tr : list Event) : bool := existsb (is_call n) tr.

Definition result (n : Name) (tr : list Event) : option Status :=
  match from (is_call n) tr with
  | ev :: _ => snd <$> entry ev
  | [] => None
  end.

(** The value of the first panic of a trace. *)
Definition panic_of (tr : list Event) : option PanicVal :=
  match from is_panic tr with
  | ev :: _ => match entry ev with
               | Some (_, Panicked r) => Some r
               | _ => None
               end
  | [] => None
  end.

(** What [readers.GetSiteConfig] returned in this trace. *)
Definition config_of_event (ev : Event) : option (SiteConfig * error) :=
  match ev with
  | Ev e (Value x) =>
      match e in Ext X return X -> option (SiteConfig * error) with
      | GetSiteConfig _ => Some
      | _ => fun _ => None
      end x
  | _ => None
  end.

Definition config_of (tr : list Event) : option (SiteConfig * error) :=
  head (omap config_of_event tr).

(** The two cleanup calls of lines 159-165, and the collaborators of the
    two build strategies of lines 132-154. *)
Definition is_cleanup (n : Name) : bool :=
  match n with NThemesClean | NEjectClean => true | _ => false end.

Definition is_external (n : Name) : bool :=
  match n with NNodeClient | NNodeDataSource | NNodeExec => true | _ => false end.

Definition is_native (n : Name) : bool :=
  match n with NClient | NDataSource => true | _ => false end.

(** What lines 126-154 call once both ejection steps are done. *)
Definition runs_after_eject (n : Name) : bool :=
  match n with NAssetsCopy => true | _ => is_external n || is_native n end.

(** A strategy executes in a run when one of its collaborators is called. *)
Definition executes (strategy : Name -> bool) (tr : list Event) : bool :=
  existsb strategy (calls tr).


(** [post m Φ]: from every world, the trace and the outcome of [m] satisfy [Φ]. *)
Definition post {A} (m : M A) (Φ : list Event -> Outcome A -> Prop) : Prop :=
  forall w, Φ (trace (m w)) (outcome (m w)).

End Model.

Arguments mkRun {ThemeOptions World A} trace final outcome.
Arguments trace {ThemeOptions World A} r.
Arguments final {ThemeOptions World A} r.
Arguments outcome {ThemeOptions World A} r.

(** ** A scripted environment

    A concrete world in which the theorems can be run: the world counts
    the calls answered so far, and a script says which call goes wrong
    and how.  Every other call succeeds. *)
Module Scenario.

(** Stands in for [readers.ThemeOptions]. *)
Definition Options : Type := list string.

Inductive Fault :=
| Fails (msg : string)
| Crashes (r : PanicVal).

Record Script := mkScript {
  config : @SiteConfig Options;   (* what plenti.json holds *)
  stat : error;                   (* what os.Stat says of the build path *)
  tempDir : string;               (* the path build.ThemesCopy returns *)
  fault : Name -> option Fault
}.

Definition nothing : Name -> option Fault := fun _ => None.

Definition only (n : Name) (f : Fault) : Name -> option Fault :=
  fun n' => if decide (n' = n) then Some f else None.

Definition returns_error (f : option Fault) : error :=
  match f with
  | Some (Fails msg) => Some msg
  | _ => None
  end.

Definition answer {X} (f : option Fault) (ok : X) (failed : string -> X) : Reply X :=
  match f with
  | None => Value ok
  | Some (Fails msg) => Value (failed msg)
  | Some (Crashes r) => Panics r
  end.

Definition system (s : Script) : forall X, @Sys X -> nat -> X * nat :=
  fun X c w =>
    (match c in Sys X return X with
     | CheckVerboseFlag _ => tt
     | CheckBenchmarkFlag _ => tt
     | time_Now => 0
     | Benchmark _ _ _ => tt
     | Log _ => tt
     | os_Stat _ => stat s
     | os_RemoveAll _ => returns_error (fault s Nos_RemoveAll)
     | os_MkdirAll _ _ => returns_error (fault s Nos_MkdirAll)
     end, S w).

Definition play (s : Script) : forall X, @Ext Options X -> nat -> Reply X * nat :=
  fun X e w =>
    (match e in Ext X return Reply X with
     | GetSiteConfig _ =>
         answer (fault s NGetSiteConfig) (config s, None)
                (fun msg => (SiteConfig_zero, Some msg))
     | ThemesCopy _ _ =>
         answer (fault s NThemesCopy) (tempDir s, None) (fun msg => ("", Some msg))
     | ThemesMerge _ _ => answer (fault s NThemesMerge) None Some
     | NpmDefaults _ => answer (fault s NNpmDefaults) None Some
     | EjectTemp tempBuildDir =>
         answer (fault s NEjectTemp)
                ([tempBuildDir +:+ "ejected/build.js"], tempBuildDir +:+ "ejected")
                (fun _ => ([], tempBuildDir +:+ "ejected"))
     | EjectCopy _ _ _ => answer (fault s NEjectCopy) None Some
     | AssetsCopy _ _ => answer (fault s NAssetsCopy) None Some
     | NodeClient _ => answer (fault s NNodeClient) "client" (fun _ => "")
     | NodeDataSource _ _ =>
         answer (fault s NNodeDataSource) ("static", "nodes", None)
                (fun msg => ("", "", Some msg))
     | NodeExec _ _ _ => answer (fault s NNodeExec) None Some
     | Client _ _ _ => answer (fault s NClient) None Some
     | DataSource _ _ _ => answer (fault s NDataSource) None Some
     | Gopack _ => answer (fault s NGopack) tt (fun _ => tt)
     | ThemesClean _ => answer (fault s NThemesClean) None Some
     | EjectClean _ _ => answer (fault s NEjectClean) None Some
     end, S w).

(** [filepath.Join(".", name)] for a plain directory name: the name
    itself, and "." for the empty name. *)
Definition join (dir name : string) : string :=
  if decide (name = "") then dir else name.

Definition run (s : Script) (flags : Flags) : Run (World := nat) unit :=
  Build [] (system s) (play s) join flags 0%nat.

(** plenti.json of a site without a theme, and of one with a theme. *)
Definition plain : @SiteConfig Options :=
  {| BuildDir := "public"; Theme := ""; ThemeConfig := ∅ |}.

Definition themed : @SiteConfig Options :=
  {| BuildDir := "public"; Theme := "mytheme";
     ThemeConfig := {[ "mytheme" := ["https://example.com/mytheme"] ]} |}.

Definition no_flags : Flags := mkFlags "" false false false.
Definition nodejs : Flags := mkFlags "" false false true.

Definition not_exist : error := Some "stat public: no such file or directory".
Definition denied : error := Some "stat public: permission denied".

(** A fresh site, nothing goes wrong. *)
Definition fresh (c : @SiteConfig Options) : Script :=
  mkScript c not_exist ".plenti-tmp" nothing.


Definition failing (c : @SiteConfig Options) (n : Name) (f : Fault) : Script :=
  mkScript c not_exist ".plenti-tmp" (only n f).

(** The runs used as examples below. *)
Definition first_build := run (fresh plain) no_flags.
Definition themed_build := run (fresh themed) no_flags.
Definition nodejs_build := run (fresh themed) nodejs.
Definition denied_build := run (mkScript plain denied ".plenti-tmp" nothing) no_flags.
Definition clean_fails :=
  run (failing themed NThemesClean (Fails "unlinkat .plenti-tmp: permission denied")) no_flags.
Definition outside_project :=
  run (failing plain NClient (Crashes "open layouts: no such file or directory")) no_flags.
Definition npm_fails :=
  run (failing plain NNpmDefaults (Fails "mkdir node_modules: permission denied")) no_flags.
Definition empty_workspace := run (mkScript themed not_exist "" nothing) no_flags.
Definition eject_panics :=
  run (failing plain NEjectTemp (Crashes "open ejected: permission denied")) no_flags.

End Scenario.

(** * Properties *)

Section Properties.

Context {ThemeOptions : Type} (ThemeOptions_zero : ThemeOptions) {World : Type}.
Variable sys : forall X, @Sys X -> World -> X * World.
Variable collab : forall X, @Ext ThemeOptions X -> World -> Reply X * World.
Variable filepath_Join : string -> string -> string.

#[local] Abbreviation M := (@M ThemeOptions World).
#[local] Abbreviation Event := (@Event ThemeOptions).
#[local] Abbreviation SiteConfig := (@SiteConfig ThemeOptions).
#[local] Abbreviation build flags w :=
  (Build ThemeOptions_zero sys collab filepath_Join flags w).

(** What a run of [Build] leaves behind, and how it ends. *)
#[local] Abbreviation events flags w := (trace (build flags w)).
#[local] Abbreviation ending flags w := (outcome (build flags w)).

(** ** Rules for [post], one per construct of the monad *)

Lemma post_ret {A} (a : A) (Φ : list Event -> Outcome A -> Prop) :
  Φ [] (Done a) -> post (mret a : M A) Φ.
Proof. intros H w. exact H. Qed.

Lemma post_bind {A B} (m : M A) (k : A -> M B) Φ :
  post m (fun tr o =>
            match o with
            | Done a => post (k a) (fun tr' o' => Φ (tr ++ tr') o')
            | Exited c => Φ tr (Exited c)
            | Panicking p => Φ tr (Panicking p)
            end) ->
  post (m ≫= k) Φ.
Proof.
  intros H w. specialize (H w). unfold mbind, M_bind, bind. cbn.
  destruct (outcome (m w)); cbn; [apply H | exact H | exact H].
Qed.

Lemma post_call {X} (e : Ext X) Φ :
  (forall rep, Φ [Ev e rep]
                 match rep with Value x => Done x | Panics p => Panicking p end) ->
  post (call collab e) Φ.
Proof. intros H w. unfold call. destruct (collab X e w) as [rep w']. apply H. Qed.

Lemma post_syscall {X} (s : Sys X) Φ :
  (forall x, Φ [Sy s x] (Done x)) -> post (syscall sys s : M X) Φ.
Proof. intros H w. unfold syscall. destruct (sys X s w) as [x w']. apply H. Qed.

Lemma post_log_Fatal {A} msg (Φ : list Event -> Outcome A -> Prop) :
  Φ [Log_Fatal msg] (Exited 1) -> post (log_Fatal msg : M A) Φ.
Proof. intros H w. exact H. Qed.

Lemma post_fmt_Println s (Φ : list Event -> Outcome unit -> Prop) :
  Φ [Stdout (s +:+ LF)] (Done tt) -> post (fmt_Println s : M unit) Φ.
Proof. intros H w. exact H. Qed.

Lemma post_fmt_Printf_Error r (Φ : list Event -> Outcome unit -> Prop) :
  Φ [Stdout ("Error: " +:+ r +:+ " " +:+ LF +:+ LF)] (Done tt) ->
  post (fmt_Printf_Error r : M unit) Φ.
Proof. intros H w. exact H. Qed.

Lemma post_defer (d : Deferred) (body : M unit) Φ :
  post body (fun tr o =>
               match o with
               | Done _ => post (d None) (fun tr' o' => Φ (tr ++ tr') (unwound o'))
               | Exited c => Φ tr (Exited c)
               | Panicking p =>
                   post (d (Some p)) (fun tr' o' => Φ (tr ++ tr') (unwound o'))
               end) ->
  post (defer d body) Φ.
Proof.
  intros H w. specialize (H w). unfold defer. cbn.
  destruct (outcome (body w)) eqn:E; cbn; [apply H | | apply H].
  rewrite E. exact H.
Qed.

(** One step of symbolic execution. *)
Ltac wp_step :=
  lazymatch goal with
  | |- post (_ ≫= _) _ => apply post_bind
  | |- post (call _ _) _ => apply post_call; intros [?|?]
  | |- post (syscall _ _) _ => apply post_syscall; intros ?
  | |- post (mret _) _ => apply post_ret
  | |- post (log_Fatal _) _ => apply post_log_Fatal
  | |- post (log_Fatalf_create _ _) _ => apply post_log_Fatal
  | |- post (fmt_Println _) _ => apply post_fmt_Println
  | |- post (fmt_Printf_Error _) _ => apply post_fmt_Printf_Error
  | |- post (defer _ _) _ => apply post_defer
  | |- post (match decide ?P with _ => _ end) _ => destruct (decide P); try congruence
  | |- post (if ?b then _ else _) _ => destruct b eqn:?
  | |- post (match ?x with _ => _ end) _ => destruct x
  | |- post (log_Fatal_if _) _ => unfold log_Fatal_if
  | |- post (CheckErr _) _ => unfold CheckErr
  end; cbv beta iota zeta delta [unwound].

(** A hypothesis that reads the trace is evaluated; one that cannot
    hold on this trace closes the goal. *)
Ltac read_trace :=
  repeat match goal with
    | H : ?f ?n (?ev :: ?tr) = ?rhs |- _ =>
        lazymatch f with result => idtac | called => idtac end;
        let v := eval lazy in (f n (ev :: tr)) in change (v = rhs) in H
    | H : ?f (?ev :: ?tr) = ?rhs |- _ =>
        lazymatch f with config_of => idtac | panic_of => idtac end;
        let v := eval lazy in (f (ev :: tr)) in change (v = rhs) in H
    end;
  try discriminate.

(** A case that the hypotheses rule out. *)
Ltac absurd := solve [congruence | contradiction].

(** Every property of all runs of [Build] is proved through [post]: the
    property is kept folded while the run is executed, and every way the
    run can go ends as one goal about a concrete trace. *)
Ltac all_runs flags w Φ :=
  revert w;
  change (post (Build ThemeOptions_zero sys collab filepath_Join flags) Φ);
  let P := fresh "P" in
  set (P := Φ);
  unfold Build; cbv beta iota zeta; repeat wp_step;
  subst P; cbv beta; cbn [app]; subst;
  try match goal with H : NodeJSFlag flags = _ |- _ => rewrite ?H in * end.

(** ** The output directory *)

(** C3: the effective build directory is the override when the override
    is not empty, and the persisted value when it is. *)
Theorem setBuildDir_override (flags : Flags) (siteConfig : SiteConfig) :
  (BuildDirFlag flags ≠ "" -> setBuildDir flags siteConfig = BuildDirFlag flags) /\
  (BuildDirFlag flags = "" -> setBuildDir flags siteConfig = BuildDir siteConfig).
Proof.
  unfold setBuildDir. split; intros H; case_decide; congruence.
Qed.

(** ** The shape of a run *)

(** No function but [build.Log] is called twice in a run, so that "the
    call of a function" is well defined in what follows. *)
Lemma called_at_most_once (flags : Flags) (w : World) :
  NoDup (List.filter (fun n => negb (bool_decide (n = NLog))) (calls (events flags w))).
Proof.
  all_runs flags w (fun (tr : list Event) (_ : Outcome unit) =>
    NoDup (List.filter (fun n => negb (bool_decide (n = NLog))) (calls tr))).
  all: apply (bool_decide_unpack _); vm_compute; exact I.
Qed.


(** ** The theme stage *)

(** C5: with a configuration whose theme name is not empty, the call
    that follows the read of the configuration is [ThemesCopy] on
    "themes/" followed by the theme name, with that theme's options, and
    no [ThemesMerge] comes before it.  When [ThemesCopy] returns an
    error the run ends there with [log.Fatal] and [ThemesMerge] is never
    called; when it returns none, [ThemesMerge] is the next call. *)
Theorem theme_copy_before_merge (flags : Flags) (w : World)
    (siteConfig : SiteConfig) (cerr : error) :
  config_of (events flags w) = Some (siteConfig, cerr) ->
  Theme siteConfig ≠ "" ->
  exists rep rest,
    from (is_call NGetSiteConfig) (events flags w) =
      Ev (GetSiteConfig ".") (Value (siteConfig, cerr))
      :: Ev (ThemesCopy ("themes/" +:+ Theme siteConfig)
                        (index_ThemeConfig ThemeOptions_zero siteConfig (Theme siteConfig)))
            rep
      :: rest /\
    called NThemesMerge (before (is_call NThemesCopy) (events flags w)) = false /\
    match rep with
    | Value (tempBuildDir, Some msg) =>
        rest = [Log_Fatal msg] /\
        ending flags w = Exited 1 /\
        called NThemesMerge (events flags w) = false
    | Value (tempBuildDir, None) =>
        exists rep' rest',
          rest = Ev (ThemesMerge tempBuildDir (setBuildDir flags siteConfig)) rep' :: rest'
    | Panics _ => called NThemesMerge (events flags w) = false
    end.
Proof.
  revert siteConfig cerr.
  all_runs flags w (fun (tr : list Event) (o : Outcome unit) =>
    forall siteConfig cerr,
    config_of tr = Some (siteConfig, cerr) ->
    Theme siteConfig ≠ "" ->
    exists rep rest,
      from (is_call NGetSiteConfig) tr =
        Ev (GetSiteConfig ".") (Value (siteConfig, cerr))
        :: Ev (ThemesCopy ("themes/" +:+ Theme siteConfig)
                          (index_ThemeConfig ThemeOptions_zero siteConfig (Theme siteConfig)))
              rep
        :: rest /\
      called NThemesMerge (before (is_call NThemesCopy) tr) = false /\
      match rep with
      | Value (tempBuildDir, Some msg) =>
          rest = [Log_Fatal msg] /\ o = Exited 1 /\ called NThemesMerge tr = false
      | Value (tempBuildDir, None) =>
          exists rep' rest',
            rest = Ev (ThemesMerge tempBuildDir (setBuildDir flags siteConfig)) rep' :: rest'
      | Panics _ => called NThemesMerge tr = false
      end).
  all: intros siteConfig cerr H Ht; read_trace.
  all: injection H as <- <-; try absurd.
  all: eexists _, _; split; [reflexivity|]; split; [reflexivity|]; cbv iota beta.
  all: first [reflexivity | by repeat split | by eexists _, _].
Qed.

(** ** The build directory *)


(** C10: the removal is attempted only when the existence check returns
    no error.  Whatever error the check returns, nothing is removed and
    nothing is reported: the call that follows the check is the creation
    of the directory, so what the path held is still there. *)
Theorem stat_error_skips_removal (flags : Flags) (w : World) (msg : string) :
  result Nos_Stat (events flags w) = Some (Returned (Some msg)) ->
  called Nos_RemoveAll (events flags w) = false /\
  exists siteConfig cerr buildPath mkerr rest,
    config_of (events flags w) = Some (siteConfig, cerr) /\
    buildPath = filepath_Join "." (setBuildDir flags siteConfig) /\
    from (is_call Nos_Stat) (events flags w) =
      Sy (os_Stat buildPath) (Some msg)
      :: Sy (os_MkdirAll buildPath os_ModePerm) mkerr :: rest.
Proof.
  revert msg.
  all_runs flags w (fun (tr : list Event) (o : Outcome unit) =>
    forall msg,
    result Nos_Stat tr = Some (Returned (Some msg)) ->
    called Nos_RemoveAll tr = false /\
    exists siteConfig cerr buildPath mkerr rest,
      config_of tr = Some (siteConfig, cerr) /\
      buildPath = filepath_Join "." (setBuildDir flags siteConfig) /\
      from (is_call Nos_Stat) tr =
        Sy (os_Stat buildPath) (Some msg)
        :: Sy (os_MkdirAll buildPath os_ModePerm) mkerr :: rest).
  all: intros msg H; read_trace.
  all: injection H as H; subst.
  all: split; [reflexivity|].
  all: eexists _, _, _, _, _; split; [reflexivity|]; split; reflexivity.
Qed.
(** ** Ejection, assets and the build strategies *)

(** C6, as amended: [AssetsCopy] and the collaborators of both build
    strategies are called only after [EjectTemp] and [EjectCopy] have
    returned without error; an error returned by [EjectCopy] ends the
    run with [log.Fatal] before any of them is called.  [EjectTemp]
    returns no error: it returns, or it panics, and then the run ends
    through the guard with a plain return. *)
Theorem eject_before_assets_and_strategy (flags : Flags) (w : World) :
  (forall later, runs_after_eject later = true ->
     called later (events flags w) = true ->
     result NEjectTemp (before (is_call later) (events flags w)) = Some (Returned None) /\
     result NEjectCopy (before (is_call later) (events flags w)) = Some (Returned None)) /\
  (forall msg, result NEjectCopy (events flags w) = Some (Returned (Some msg)) ->
     ending flags w = Exited 1 /\
     last (events flags w) = Some (Log_Fatal msg) /\
     existsb runs_after_eject (calls (events flags w)) = false) /\
  (forall st, result NEjectTemp (events flags w) = Some st ->
     st = Returned None \/
     exists r, st = Panicked r /\ ending flags w = Done tt).
Proof.
  all_runs flags w (fun (tr : list Event) (o : Outcome unit) =>
    (forall later, runs_after_eject later = true ->
       called later tr = true ->
       result NEjectTemp (before (is_call later) tr) = Some (Returned None) /\
       result NEjectCopy (before (is_call later) tr) = Some (Returned None)) /\
    (forall msg, result NEjectCopy tr = Some (Returned (Some msg)) ->
       o = Exited 1 /\
       last tr = Some (Log_Fatal msg) /\
       existsb runs_after_eject (calls tr) = false) /\
    (forall st, result NEjectTemp tr = Some st ->
       st = Returned None \/ exists r, st = Panicked r /\ o = Done tt)).
  all: split; [intros later Hn H; destruct later; try discriminate Hn; read_trace; by split|].
  all: split; [intros msg H; read_trace; injection H as <-; by repeat split|].
  all: intros st H; read_trace; injection H as <-.
  all: first [by left | right; by eexists].
Qed.

(** C2, as amended: in every run at most one strategy executes, the one
    the flag selects: with the flag set no native collaborator is
    called, without it no external one.  A run in which asset staging
    returned without error enters the selected strategy; any other run
    executes neither. *)
Theorem strategy_exclusive (flags : Flags) (w : World) :
  (NodeJSFlag flags = true -> executes is_native (events flags w) = false) /\
  (NodeJSFlag flags = false -> executes is_external (events flags w) = false) /\
  (result NAssetsCopy (events flags w) = Some (Returned None) ->
   called (if NodeJSFlag flags then NNodeClient else NClient) (events flags w) = true) /\
  (result NAssetsCopy (events flags w) ≠ Some (Returned None) ->
   executes is_external (events flags w) = false /\
   executes is_native (events flags w) = false).
Proof.
  all_runs flags w (fun (tr : list Event) (_ : Outcome unit) =>
    (NodeJSFlag flags = true -> executes is_native tr = false) /\
    (NodeJSFlag flags = false -> executes is_external tr = false) /\
    (result NAssetsCopy tr = Some (Returned None) ->
     called (if NodeJSFlag flags then NNodeClient else NClient) tr = true) /\
    (result NAssetsCopy tr ≠ Some (Returned None) ->
     executes is_external tr = false /\ executes is_native tr = false)).
  all: split; [intros; solve [reflexivity | congruence]|].
  all: split; [intros; solve [reflexivity | congruence]|].
  all: split; [intros H; read_trace; reflexivity|].
  all: intros H; first [by split | exfalso; apply H; reflexivity].
Qed.

(** ** Cleanup *)

(** C1, as amended: in every run that reaches the cleanup (the bundler
    returned), exactly one of the two cleanup calls is made, and
    [tempBuildDir] alone decides which one: [ThemesClean] when it is not
    empty, [EjectClean] when it is.  [tempBuildDir] is empty when no
    theme is configured, and it is whatever path [ThemesCopy] returned
    when one is.  A run that does not get that far makes neither call. *)
Theorem cleanup_decided_by_tempBuildDir (flags : Flags) (w : World) :
  (result NGopack (events flags w) = Some (Returned None) ->
   exists siteConfig cerr tempBuildDir,
     config_of (events flags w) = Some (siteConfig, cerr) /\
     (Theme siteConfig = "" ->
      tempBuildDir = "" /\ called NThemesCopy (events flags w) = false) /\
     (Theme siteConfig ≠ "" ->
      exists rest,
        from (is_call NThemesCopy) (events flags w) =
        Ev (ThemesCopy ("themes/" +:+ Theme siteConfig)
                       (index_ThemeConfig ThemeOptions_zero siteConfig (Theme siteConfig)))
           (Value (tempBuildDir, None)) :: rest) /\
     List.filter is_cleanup (calls (events flags w)) =
       [if decide (tempBuildDir ≠ "") then NThemesClean else NEjectClean] /\
     (tempBuildDir ≠ "" ->
      exists rep rest,
        from (is_call NThemesClean) (events flags w) =
        Ev (ThemesClean tempBuildDir) rep :: rest)) /\
  (result NGopack (events flags w) ≠ Some (Returned None) ->
   List.filter is_cleanup (calls (events flags w)) = []).
Proof.
  all_runs flags w (fun (tr : list Event) (_ : Outcome unit) =>
    (result NGopack tr = Some (Returned None) ->
     exists siteConfig cerr tempBuildDir,
       config_of tr = Some (siteConfig, cerr) /\
       (Theme siteConfig = "" -> tempBuildDir = "" /\ called NThemesCopy tr = false) /\
       (Theme siteConfig ≠ "" ->
        exists rest,
          from (is_call NThemesCopy) tr =
          Ev (ThemesCopy ("themes/" +:+ Theme siteConfig)
                         (index_ThemeConfig ThemeOptions_zero siteConfig (Theme siteConfig)))
             (Value (tempBuildDir, None)) :: rest) /\
       List.filter is_cleanup (calls tr) =
         [if decide (tempBuildDir ≠ "") then NThemesClean else NEjectClean] /\
       (tempBuildDir ≠ "" ->
        exists rep rest,
          from (is_call NThemesClean) tr = Ev (ThemesClean tempBuildDir) rep :: rest)) /\
    (result NGopack tr ≠ Some (Returned None) ->
     List.filter is_cleanup (calls tr) = [])).
  all: split; [|intros H; first [reflexivity | exfalso; apply H; reflexivity]].
  all: intros H; read_trace.
  all: eexists _, _, _; split; [reflexivity|].
  all: split; [intros Ht; first [absurd | split; reflexivity] |].
  all: split; [intros Ht; first [absurd | eexists; reflexivity] |].
  all: split; [first [reflexivity | case_decide; first [reflexivity | absurd]] |].
  all: intros Ht; first [absurd | eexists _, _; reflexivity].
Qed.

(** C7: an error returned by either cleanup call ends the run with
    [log.Fatal] of that error and exit status 1, although by then the
    staged assets, the selected build strategy and the bundler have all
    returned without error. *)
Theorem cleanup_error_is_fatal (flags : Flags) (w : World) (which : Name) (msg : string) :
  is_cleanup which = true ->
  result which (events flags w) = Some (Returned (Some msg)) ->
  ending flags w = Exited 1 /\
  last (events flags w) = Some (Log_Fatal msg) /\
  result NAssetsCopy (events flags w) = Some (Returned None) /\
  result (if NodeJSFlag flags then NNodeExec else NDataSource) (events flags w)
    = Some (Returned None) /\
  result NGopack (events flags w) = Some (Returned None).
Proof.
  revert which msg.
  all_runs flags w (fun (tr : list Event) (o : Outcome unit) =>
    forall which msg,
    is_cleanup which = true ->
    result which tr = Some (Returned (Some msg)) ->
    o = Exited 1 /\
    last tr = Some (Log_Fatal msg) /\
    result NAssetsCopy tr = Some (Returned None) /\
    result (if NodeJSFlag flags then NNodeExec else NDataSource) tr
      = Some (Returned None) /\
    result NGopack tr = Some (Returned None)).
  all: intros which msg Hn H; destruct which; try discriminate Hn; read_trace.
  all: injection H as <-; repeat split; reflexivity.
Qed.

(** ** Failures outside the stages *)

(** C8: when a stage collaborator panics, that call is the last of the
    pipeline: the deferred guard recovers the panic and prints the two
    lines, the advice to create a valid project and the value of the
    panic; the deferred benchmark report follows, and [Build] returns to
    its caller, with no exit status set. *)
Theorem panic_is_recovered (flags : Flags) (w : World) (r : PanicVal) :
  panic_of (events flags w) = Some r ->
  exists X (e : Ext X) start u,
    from is_panic (events flags w) =
      [Ev e (Panics r);
       Stdout ("Please create a valid Plenti project or fix your app structure before trying to run this command again." +:+ LF);
       Stdout ("Error: " +:+ r +:+ " " +:+ LF +:+ LF);
       Sy (Benchmark start "Total build" true) u] /\
    ending flags w = Done tt.
Proof.
  revert r.
  all_runs flags w (fun (tr : list Event) (o : Outcome unit) =>
    forall r,
    panic_of tr = Some r ->
    exists X (e : Ext X) start u,
      from is_panic tr =
        [Ev e (Panics r);
         Stdout ("Please create a valid Plenti project or fix your app structure before trying to run this command again." +:+ LF);
         Stdout ("Error: " +:+ r +:+ " " +:+ LF +:+ LF);
         Sy (Benchmark start "Total build" true) u] /\
      o = Done tt).
  all: intros val H; read_trace.
  all: injection H as <-; eexists _, _, _, _; split; reflexivity.
Qed.



End Properties.

(** * The theorems at work on scripted runs *)

(** Scenarios A and B of the specification: without an override the
    persisted directory name is used, with one the override is. *)
Example setBuildDir_persisted :
  setBuildDir (mkFlags "" false false false) Scenario.plain = "public".
Proof. reflexivity. Qed.

Example setBuildDir_overridden :
  setBuildDir (mkFlags "out" false false false) Scenario.plain = "out".
Proof. reflexivity. Qed.

(** A first build of a site without a theme, and a build with a theme
    through the system's NodeJS: the calls, in order. *)
Example first_build_calls :
  calls (trace Scenario.first_build) =
    [NCheckVerboseFlag; NCheckBenchmarkFlag; Ntime_Now; NGetSiteConfig;
     Nos_Stat; Nos_MkdirAll; NLog; NNpmDefaults; NEjectTemp; NEjectCopy;
     NAssetsCopy; NClient; NDataSource; NGopack; NEjectClean; NBenchmark] /\
  outcome Scenario.first_build = Done tt.
Proof. split; reflexivity. Qed.

Example nodejs_build_calls :
  calls (trace Scenario.nodejs_build) =
    [NCheckVerboseFlag; NCheckBenchmarkFlag; Ntime_Now; NGetSiteConfig;
     NThemesCopy; NThemesMerge; Nos_Stat; Nos_MkdirAll; NLog; NNpmDefaults;
     NEjectTemp; NEjectCopy; NAssetsCopy; NNodeClient; NNodeDataSource;
     NNodeExec; NGopack; NThemesClean; NBenchmark] /\
  outcome Scenario.nodejs_build = Done tt.
Proof. split; reflexivity. Qed.

(** C5 on the themed site: the theme is copied from "themes/mytheme" with
    the options plenti.json gives for it, then merged. *)
Lemma theme_copy_before_merge_witness :
  config_of (trace Scenario.themed_build) = Some (Scenario.themed, None) /\
  Theme Scenario.themed ≠ "" /\
  exists rep rest,
    from (is_call NGetSiteConfig) (trace Scenario.themed_build) =
      Ev (GetSiteConfig ".") (Value (Scenario.themed, None))
      :: Ev (ThemesCopy ("themes/" +:+ Theme Scenario.themed)
                        (index_ThemeConfig [] Scenario.themed (Theme Scenario.themed)))
            rep
      :: rest /\
    called NThemesMerge (before (is_call NThemesCopy) (trace Scenario.themed_build)) = false /\
    match rep with
    | Value (tempBuildDir, Some msg) =>
        rest = [Log_Fatal msg] /\
        outcome Scenario.themed_build = Exited 1 /\
        called NThemesMerge (trace Scenario.themed_build) = false
    | Value (tempBuildDir, None) =>
        exists rep' rest',
          rest = Ev (ThemesMerge tempBuildDir (setBuildDir Scenario.no_flags Scenario.themed))
                    rep' :: rest'
    | Panics _ => called NThemesMerge (trace Scenario.themed_build) = false
    end.
Proof.
  assert (H : config_of (trace Scenario.themed_build) = Some (Scenario.themed, None))
    by (vm_compute; reflexivity).
  assert (Ht : Theme Scenario.themed ≠ "") by discriminate.
  split; [exact H|]. split; [exact Ht|].
  exact (theme_copy_before_merge [] (Scenario.system _) (Scenario.play _) Scenario.join
           Scenario.no_flags 0%nat Scenario.themed None H Ht).
Defined.


(** C10 on a build directory that [os.Stat] may not look at. *)
Lemma stat_error_skips_removal_witness :
  result Nos_Stat (trace Scenario.denied_build)
    = Some (Returned (Some "stat public: permission denied")) /\
  called Nos_RemoveAll (trace Scenario.denied_build) = false /\
  exists siteConfig cerr buildPath mkerr rest,
    config_of (trace Scenario.denied_build) = Some (siteConfig, cerr) /\
    buildPath = Scenario.join "." (setBuildDir Scenario.no_flags siteConfig) /\
    from (is_call Nos_Stat) (trace Scenario.denied_build) =
      Sy (os_Stat buildPath) (Some "stat public: permission denied")
      :: Sy (os_MkdirAll buildPath os_ModePerm) mkerr :: rest.
Proof.
  assert (H : result Nos_Stat (trace Scenario.denied_build)
              = Some (Returned (Some "stat public: permission denied")))
    by (vm_compute; reflexivity).
  split; [exact H|].
  exact (stat_error_skips_removal [] (Scenario.system _) (Scenario.play _) Scenario.join
           Scenario.no_flags 0%nat _ H).
Defined.

(** C1, as amended, on the themed site: the workspace [ThemesCopy]
    returned is what [ThemesClean] deletes. *)
Lemma cleanup_decided_by_tempBuildDir_witness :
  result NGopack (trace Scenario.themed_build) = Some (Returned None) /\
  exists siteConfig cerr tempBuildDir,
    config_of (trace Scenario.themed_build) = Some (siteConfig, cerr) /\
    (Theme siteConfig = "" ->
     tempBuildDir = "" /\ called NThemesCopy (trace Scenario.themed_build) = false) /\
    (Theme siteConfig ≠ "" ->
     exists rest,
       from (is_call NThemesCopy) (trace Scenario.themed_build) =
       Ev (ThemesCopy ("themes/" +:+ Theme siteConfig)
                      (index_ThemeConfig [] siteConfig (Theme siteConfig)))
          (Value (tempBuildDir, None)) :: rest) /\
    List.filter is_cleanup (calls (trace Scenario.themed_build)) =
      [if decide (tempBuildDir ≠ "") then NThemesClean else NEjectClean] /\
    (tempBuildDir ≠ "" ->
     exists rep rest,
       from (is_call NThemesClean) (trace Scenario.themed_build) =
       Ev (ThemesClean tempBuildDir) rep :: rest).
Proof.
  assert (H : result NGopack (trace Scenario.themed_build) = Some (Returned None))
    by (vm_compute; reflexivity).
  split; [exact H|].
  exact (proj1 (cleanup_decided_by_tempBuildDir []
                  (Scenario.system (Scenario.fresh Scenario.themed))
                  (Scenario.play (Scenario.fresh Scenario.themed))
                  Scenario.join Scenario.no_flags 0%nat) H).
Defined.

(** The claim C1 as the specification states it fails twice.  When a stage
    fails the run exits before the cleanup, and neither cleanup call is
    made.  And when a theme is configured but [ThemesCopy] returns the
    empty path, the workspace path is empty although a theme is
    configured, and the scaffold-only cleanup runs. *)
Lemma cleanup_invariant_counterexample :
  (calls (trace Scenario.npm_fails) =
     [NCheckVerboseFlag; NCheckBenchmarkFlag; Ntime_Now; NGetSiteConfig;
      Nos_Stat; Nos_MkdirAll; NLog; NNpmDefaults] /\
   outcome Scenario.npm_fails = Exited 1 /\
   List.filter is_cleanup (calls (trace Scenario.npm_fails)) = []) /\
  (Theme Scenario.themed = "mytheme" /\
   config_of (trace Scenario.empty_workspace) = Some (Scenario.themed, None) /\
   (exists rest,
      from (is_call NThemesCopy) (trace Scenario.empty_workspace) =
        Ev (ThemesCopy "themes/mytheme" ["https://example.com/mytheme"]) (Value ("", None))
        :: Ev (ThemesMerge "" "public") (Value None) :: rest) /\
   List.filter is_cleanup (calls (trace Scenario.empty_workspace)) = [NEjectClean]).
Proof.
  split; [repeat split; vm_compute; reflexivity|].
  split; [reflexivity|]. split; [vm_compute; reflexivity|].
  split; [|vm_compute; reflexivity].
  eexists. vm_compute. reflexivity.
Qed.

(** C7 when the theme workspace cannot be deleted. *)
Lemma cleanup_error_is_fatal_witness :
  is_cleanup NThemesClean = true /\
  result NThemesClean (trace Scenario.clean_fails)
    = Some (Returned (Some "unlinkat .plenti-tmp: permission denied")) /\
  outcome Scenario.clean_fails = Exited 1 /\
  last (trace Scenario.clean_fails)
    = Some (Log_Fatal "unlinkat .plenti-tmp: permission denied") /\
  result NAssetsCopy (trace Scenario.clean_fails) = Some (Returned None) /\
  result (if NodeJSFlag Scenario.no_flags then NNodeExec else NDataSource)
         (trace Scenario.clean_fails) = Some (Returned None) /\
  result NGopack (trace Scenario.clean_fails) = Some (Returned None).
Proof.
  assert (H : result NThemesClean (trace Scenario.clean_fails)
              = Some (Returned (Some "unlinkat .plenti-tmp: permission denied")))
    by (vm_compute; reflexivity).
  split; [reflexivity|]. split; [exact H|].
  exact (cleanup_error_is_fatal [] (Scenario.system _) (Scenario.play _) Scenario.join
           Scenario.no_flags 0%nat NThemesClean _ eq_refl H).
Defined.

(** C8 when the command is run outside of a project. *)
Lemma panic_is_recovered_witness :
  panic_of (trace Scenario.outside_project)
    = Some "open layouts: no such file or directory" /\
  exists X (e : Ext X) start u,
    from is_panic (trace Scenario.outside_project) =
      [Ev e (Panics "open layouts: no such file or directory");
       Stdout ("Please create a valid Plenti project or fix your app structure before trying to run this command again." +:+ LF);
       Stdout ("Error: " +:+ "open layouts: no such file or directory" +:+ " " +:+ LF +:+ LF);
       Sy (Benchmark start "Total build" true) u] /\
    outcome Scenario.outside_project = Done tt.
Proof.
  assert (H : panic_of (trace Scenario.outside_project)
              = Some "open layouts: no such file or directory")
    by (vm_compute; reflexivity).
  split; [exact H|].
  exact (panic_is_recovered [] (Scenario.system _) (Scenario.play _) Scenario.join
           Scenario.no_flags 0%nat _ H).
Defined.


(** The claim C2 as the specification states it fails on a run that ends
    before the strategies are reached: neither strategy executes. *)
Lemma strategy_exclusive_counterexample :
  calls (trace Scenario.npm_fails) =
    [NCheckVerboseFlag; NCheckBenchmarkFlag; Ntime_Now; NGetSiteConfig;
     Nos_Stat; Nos_MkdirAll; NLog; NNpmDefaults] /\
  last (trace Scenario.npm_fails)
    = Some (Log_Fatal "mkdir node_modules: permission denied") /\
  outcome Scenario.npm_fails = Exited 1 /\
  executes is_external (trace Scenario.npm_fails) = false /\
  executes is_native (trace Scenario.npm_fails) = false.
Proof. repeat split; vm_compute; reflexivity. Qed.

(** C2, as amended, on the build through NodeJS: the external strategy is
    entered and no native collaborator is called. *)
Lemma strategy_exclusive_witness :
  NodeJSFlag Scenario.nodejs = true /\
  result NAssetsCopy (trace Scenario.nodejs_build) = Some (Returned None) /\
  executes is_native (trace Scenario.nodejs_build) = false /\
  called NNodeClient (trace Scenario.nodejs_build) = true.
Proof.
  assert (Hf : NodeJSFlag Scenario.nodejs = true) by reflexivity.
  assert (Ha : result NAssetsCopy (trace Scenario.nodejs_build) = Some (Returned None))
    by (vm_compute; reflexivity).
  destruct (strategy_exclusive [] (Scenario.system (Scenario.fresh Scenario.themed))
              (Scenario.play (Scenario.fresh Scenario.themed)) Scenario.join
              Scenario.nodejs 0%nat) as (Hnative & _ & Hentered & _).
  split; [exact Hf|]. split; [exact Ha|].
  split; [exact (Hnative Hf) | exact (Hentered Ha)].
Defined.

(** The claim C6 as the specification states it fails on [EjectTemp]: the
    step has no error to return, and when it fails by panicking the run is
    not fatal: the guard recovers and [Build] returns. *)
Lemma eject_failure_counterexample :
  calls (trace Scenario.eject_panics) =
    [NCheckVerboseFlag; NCheckBenchmarkFlag; Ntime_Now; NGetSiteConfig;
     Nos_Stat; Nos_MkdirAll; NLog; NNpmDefaults; NEjectTemp; NBenchmark] /\
  result NEjectTemp (trace Scenario.eject_panics)
    = Some (Panicked "open ejected: permission denied") /\
  outcome Scenario.eject_panics = Done tt /\
  outcome Scenario.eject_panics ≠ Exited 1.
Proof. repeat split; [vm_compute; reflexivity .. | discriminate]. Qed.

(** C6, as amended, on a first build: the assets are staged after both
    ejection steps have returned. *)
Lemma eject_before_assets_and_strategy_witness :
  called NAssetsCopy (trace Scenario.first_build) = true /\
  result NEjectTemp (before (is_call NAssetsCopy) (trace Scenario.first_build))
    = Some (Returned None) /\
  result NEjectCopy (before (is_call NAssetsCopy) (trace Scenario.first_build))
    = Some (Returned None).
Proof.
  assert (Hc : called NAssetsCopy (trace Scenario.first_build) = true)
    by (vm_compute; reflexivity).
  destruct (eject_before_assets_and_strategy []
              (Scenario.system (Scenario.fresh Scenario.plain))
              (Scenario.play (Scenario.fresh Scenario.plain))
              Scenario.join Scenario.no_flags 0%nat) as (Hbefore & _ & _).
  split; [exact Hc|]. exact (Hbefore NAssetsCopy eq_refl Hc).
Defined.

